(** * Text Selection Monitor: the UI state machine of [src/App.tsx]

    The React component [App] keeps four pieces of state ([useState]) and
    changes them from five places: the two event listeners registered in
    [useEffect], and the three async functions [checkPermissions],
    [startDetection] and [stopDetection].  Each async function is split at its
    single [await]: the part that runs when the function is called, and the
    part that runs when the promise returned by [invoke] settles.  Every state
    setter but [setSelectedTexts] is called with a plain value;
    [setSelectedTexts] is called with an updater function, which React applies
    to the current list. *)

From Stdlib Require Import List String Ascii Bool Arith Lia.
From Stdlib Require Import Floats.PrimFloat.
Import ListNotations.
Local Open Scope string_scope.

(* ------------------------------------------------------------------------- *)
(** ** Data model *)

(** [selection_type: "Selected" | "Hovered" | "Focused"] *)
Inductive SelectionType : Type :=
  | Selected
  | Hovered
  | Focused.

(** [interface SelectionEvent]; a JS [number] is an IEEE 754 binary64. *)
Record SelectionEvent : Type := mkSelectionEvent {
  text : string;
  app_name : string;
  timestamp : float;
  selection_type : SelectionType
}.

(** The four [useState] cells of [App]. *)
Record AppState : Type := mkAppState {
  isDetecting : bool;
  hasPermissions : bool;
  selectedTexts : list SelectionEvent;
  status : string
}.

(** [useState(false)], [useState(false)], [useState([])], [useState("Ready")] *)
Definition initial : AppState :=
  {| isDetecting := false;
     hasPermissions := false;
     selectedTexts := [];
     status := "Ready" |}.

Definition setIsDetecting (v : bool) (s : AppState) : AppState :=
  {| isDetecting := v;
     hasPermissions := hasPermissions s;
     selectedTexts := selectedTexts s;
     status := status s |}.

Definition setHasPermissions (v : bool) (s : AppState) : AppState :=
  {| isDetecting := isDetecting s;
     hasPermissions := v;
     selectedTexts := selectedTexts s;
     status := status s |}.

(** Always called with an updater [(prev) => ...]. *)
Definition setSelectedTexts
    (updater : list SelectionEvent -> list SelectionEvent) (s : AppState)
    : AppState :=
  {| isDetecting := isDetecting s;
     hasPermissions := hasPermissions s;
     selectedTexts := updater (selectedTexts s);
     status := status s |}.

Definition setStatus (v : string) (s : AppState) : AppState :=
  {| isDetecting := isDetecting s;
     hasPermissions := hasPermissions s;
     selectedTexts := selectedTexts s;
     status := v |}.

(** [Array.prototype.slice(start, end)] for indices that are not negative:
    the elements at positions [start <= i < end], fewer when the array is
    shorter. *)
Definition slice {A : Type} (start stop : nat) (l : list A) : list A :=
  firstn (stop - start) (skipn start l).

(* ------------------------------------------------------------------------- *)
(** ** Event ingestion: the two listeners of [useEffect] *)

(** [listen<SelectionEvent>("text-selection-changed", ...)] *)
Definition on_text_selection_changed (payload : SelectionEvent) (s : AppState)
    : AppState :=
  setSelectedTexts (fun prev => payload :: slice 0 9 prev) s.

(** The event the hotkey listener builds; [now] is what [Date.now()] returns
    when the listener runs (milliseconds since the epoch). *)
Definition hotkey_selectionEvent (now : float) (payload : string)
    : SelectionEvent :=
  {| text := payload;
     app_name := "Unknown (Hotkey)";
     timestamp := PrimFloat.div now 1000%float;
     selection_type := Selected |}.

(** [listen<string>("hotkey-selection-detected", ...)] *)
Definition on_hotkey_selection_detected (now : float) (payload : string)
    (s : AppState) : AppState :=
  let selectionEvent := hotkey_selectionEvent now payload in
  setSelectedTexts (fun prev => selectionEvent :: slice 0 9 prev) s.

(** One arrival on one of the two channels.  A hotkey arrival carries the
    clock reading of the moment it is handled. *)
Inductive Arrival : Type :=
  | TextSelectionChanged (payload : SelectionEvent)
  | HotkeySelectionDetected (payload : string) (now : float).

Definition ingest (a : Arrival) (s : AppState) : AppState :=
  match a with
  | TextSelectionChanged payload => on_text_selection_changed payload s
  | HotkeySelectionDetected payload now =>
      on_hotkey_selection_detected now payload s
  end.

(** The [SelectionEvent] an arrival contributes to the list. *)
Definition folded (a : Arrival) : SelectionEvent :=
  match a with
  | TextSelectionChanged payload => payload
  | HotkeySelectionDetected payload now => hotkey_selectionEvent now payload
  end.

(* ------------------------------------------------------------------------- *)
(** ** Backend calls *)

(** How the promise of [invoke] settles. *)
Inductive Settled (A E : Type) : Type :=
  | Resolved (value : A)
  | Rejected (reason : E).
Arguments Resolved {A E} value.
Arguments Rejected {A E} reason.

(** A rejection reason is any JS value; the template literal
    [`Error: ${error}`] converts it with the language's [ToString]. *)
Class JsToString (E : Type) : Type := ToString : E -> string.

(** [ToString] of a string is the string itself. *)
#[export] Instance JsToString_string : JsToString string := fun s => s.

(** The three async functions of [App]. *)
Inductive Handler : Type :=
  | checkPermissions
  | startDetection
  | stopDetection.

(** The command each of them passes to [invoke]. *)
Definition command (h : Handler) : string :=
  match h with
  | checkPermissions => "check_permissions"
  | startDetection => "start_text_detection"
  | stopDetection => "stop_text_detection"
  end.

Section BackendCalls.
Context {E : Type} `{JsToString E}.

(** [checkPermissions] changes no state before its [await]. *)
Definition checkPermissions_called (s : AppState) : AppState := s.

Definition checkPermissions_settled (r : Settled bool E) (s : AppState)
    : AppState :=
  match r with
  | Resolved permissions =>
      setStatus
        (if permissions then "Permissions granted" else "Permissions needed")
        (setHasPermissions permissions s)
  | Rejected error => setStatus "Error checking permissions" s
  end.

Definition startDetection_called (s : AppState) : AppState :=
  setStatus "Starting detection..." s.

Definition startDetection_settled (r : Settled string E) (s : AppState)
    : AppState :=
  match r with
  | Resolved result => setStatus result (setIsDetecting true s)
  | Rejected error => setStatus ("Error: " ++ ToString error) s
  end.

Definition stopDetection_called (s : AppState) : AppState :=
  setStatus "Stopping detection..." s.

Definition stopDetection_settled (r : Settled string E) (s : AppState)
    : AppState :=
  match r with
  | Resolved result => setStatus result (setIsDetecting false s)
  | Rejected error => setStatus ("Error: " ++ ToString error) s
  end.

(** A settled call, tagged with the function that awaits it. *)
Inductive Outcome : Type :=
  | CheckPermissionsOutcome (r : Settled bool E)
  | StartDetectionOutcome (r : Settled string E)
  | StopDetectionOutcome (r : Settled string E).

(** The rejection of the call of handler [h] with reason [error]. *)
Definition rejection (h : Handler) (error : E) : Outcome :=
  match h with
  | checkPermissions => CheckPermissionsOutcome (Rejected error)
  | startDetection => StartDetectionOutcome (Rejected error)
  | stopDetection => StopDetectionOutcome (Rejected error)
  end.

(** The handler up to its [await]. *)
Definition called (h : Handler) (s : AppState) : AppState :=
  match h with
  | checkPermissions => checkPermissions_called s
  | startDetection => startDetection_called s
  | stopDetection => stopDetection_called s
  end.

(** The handler from its [await] on. *)
Definition settled (o : Outcome) (s : AppState) : AppState :=
  match o with
  | CheckPermissionsOutcome r => checkPermissions_settled r s
  | StartDetectionOutcome r => startDetection_settled r s
  | StopDetectionOutcome r => stopDetection_settled r s
  end.

End BackendCalls.
Arguments Outcome E : clear implicits.

(* ------------------------------------------------------------------------- *)
(** ** Rendering *)

(** A [<button>] of the control panel.  A button without a [disabled]
    attribute is enabled. *)
Record Button : Type := mkButton {
  onClick : Handler;
  disabled : bool;
  className : string;
  label : string
}.

Definition start_btn (permitted : bool) : Button :=
  {| onClick := startDetection;
     disabled := negb permitted;
     className := "start-btn";
     label := "Start Text Detection" |}.

Definition stop_btn : Button :=
  {| onClick := stopDetection;
     disabled := false;
     className := "stop-btn";
     label := "Stop Text Detection" |}.

Definition refresh_btn : Button :=
  {| onClick := checkPermissions;
     disabled := false;
     className := EmptyString;
     label := "Refresh" |}.

(** [<div className="controls">]: one button, chosen by [!isDetecting]. *)
Definition render_controls (s : AppState) : Button :=
  if negb (isDetecting s) then start_btn (hasPermissions s) else stop_btn.

(** [<div className="status">] *)
Definition render_status (s : AppState) : string := status s.

(** The colour of the permission indicator. *)
Definition render_permissions (s : AppState) : string :=
  if hasPermissions s then "green" else "red".

Definition getTypeColor (type : string) : string :=
  if String.eqb type "Selected" then "#4CAF50"
  else if String.eqb type "Hovered" then "#FF9800"
  else if String.eqb type "Focused" then "#2196F3"
  else "#666".

(** The string a [selection_type] is at run time. *)
Definition selection_type_string (t : SelectionType) : string :=
  match t with
  | Selected => "Selected"
  | Hovered => "Hovered"
  | Focused => "Focused"
  end.

(** One [<div className="text-item">].  [item_time] is the argument of
    [formatTimestamp]; the locale decides how it is printed. *)
Record TextItem : Type := mkTextItem {
  item_key : nat;
  item_backgroundColor : string;
  item_type : string;
  item_app_name : string;
  item_time : float;
  item_content : string
}.

Definition render_item (index : nat) (selection : SelectionEvent) : TextItem :=
  {| item_key := index;
     item_backgroundColor :=
       getTypeColor (selection_type_string (selection_type selection));
     item_type := selection_type_string (selection_type selection);
     item_app_name := app_name selection;
     item_time := timestamp selection;
     item_content := text selection |}.

(** [Array.prototype.map] with the [(element, index)] callback. *)
Fixpoint mapi_from {A B : Type} (f : nat -> A -> B) (index : nat) (l : list A)
    : list B :=
  match l with
  | [] => []
  | x :: rest => f index x :: mapi_from f (S index) rest
  end.

(** [<div className="text-list">]: [selectedTexts.map(...)]; when the list is
    empty a paragraph is shown in its place and no item is displayed. *)
Definition render_text_list (s : AppState) : list TextItem :=
  mapi_from render_item 0 (selectedTexts s).

(** The count in the heading: [selectedTexts.length]. *)
Definition render_count (s : AppState) : nat :=
  List.length (selectedTexts s).

(* ------------------------------------------------------------------------- *)
(** ** The event loop *)

(** A click reaches [onClick] only when the button is not disabled. *)
Definition click (b : Button) (s : AppState) : AppState :=
  if disabled b then s else called (onClick b) s.

(** The handler a click on [b] starts, if any. *)
Definition click_starts (b : Button) : option Handler :=
  if disabled b then None else Some (onClick b).

(** What the single UI thread can be handed: an arrival on a channel, a click
    on the Refresh button, a click on the one button of the controls, or the
    settlement of a pending call. *)
Inductive Msg (E : Type) : Type :=
  | Arrive (a : Arrival)
  | ClickRefresh
  | ClickControl
  | Settle (o : Outcome E).
Arguments Arrive {E} a.
Arguments ClickRefresh {E}.
Arguments ClickControl {E}.
Arguments Settle {E} o.

Definition update {E : Type} `{JsToString E} (m : Msg E) (s : AppState)
    : AppState :=
  match m with
  | Arrive a => ingest a s
  | ClickRefresh => click refresh_btn s
  | ClickControl => click (render_controls s) s
  | Settle o => settled o s
  end.

(** The state after a sequence of messages, oldest first. *)
Definition run {E : Type} `{JsToString E} (msgs : list (Msg E)) (s : AppState)
    : AppState :=
  fold_left (fun acc m => update m acc) msgs s.

(** The state after a sequence of arrivals, oldest first. *)
Definition ingest_all (arrivals : list Arrival) (s : AppState) : AppState :=
  fold_left (fun acc a => ingest a acc) arrivals s.

(** The arrivals among the messages, in order. *)
Fixpoint arrivals {E : Type} (msgs : list (Msg E)) : list Arrival :=
  match msgs with
  | [] => []
  | Arrive a :: rest => a :: arrivals rest
  | _ :: rest => arrivals rest
  end.

(** A whole call of handler [h] that ends in a rejection: the handler runs to
    its [await], [between] arrives while the call is pending, and the call
    rejects with [error]. *)
Definition rejected_call {E : Type} `{JsToString E} (h : Handler) (error : E)
    (between : list Arrival) (s : AppState) : AppState :=
  settled (rejection h error) (ingest_all between (called h s)).

(* ------------------------------------------------------------------------- *)
(** ** Substrings *)

(** [String.prototype.includes]: [needle] occurs somewhere in [hay]. *)
Fixpoint includes (needle hay : string) : bool :=
  String.prefix needle hay ||
  match hay with
  | EmptyString => false
  | String _ rest => includes needle rest
  end.

(* ------------------------------------------------------------------------- *)
(** ** The rest of the view *)

(** [<div className="detected-texts">] under its heading: a paragraph when
    [selectedTexts.length === 0], the list of items otherwise. *)
Inductive DetectedTexts : Type :=
  | NoSelectionsYet
  | TextList (items : list TextItem).

Definition render_detected_texts (s : AppState) : DetectedTexts :=
  if Nat.eqb (List.length (selectedTexts s)) 0
  then NoSelectionsYet
  else TextList (render_text_list s).

(** The settlements among the messages, in order. *)
Fixpoint settlements {E : Type} (msgs : list (Msg E)) : list (Outcome E) :=
  match msgs with
  | [] => []
  | Settle o :: rest => o :: settlements rest
  | _ :: rest => settlements rest
  end.

(* ------------------------------------------------------------------------- *)
(** ** Lists and strings *)

Lemma slice_0 {A : Type} (n : nat) (l : list A) : slice 0 n l = firstn n l.
Proof. unfold slice. now rewrite Nat.sub_0_r. Qed.

Lemma prefix_append (needle post : string) :
  String.prefix needle (needle ++ post) = true.
Proof.
  induction needle as [|c needle IH]; simpl.
  - now destruct post.
  - destruct (ascii_dec c c) as [_|ne]; [exact IH | now elim ne].
Qed.

Lemma prefix_true_append (needle hay : string) :
  String.prefix needle hay = true -> exists post, hay = needle ++ post.
Proof.
  revert hay; induction needle as [|c needle IH]; intros hay Hp.
  - now exists hay.
  - destruct hay as [|d hay]; simpl in Hp; [discriminate|].
    destruct (ascii_dec c d) as [->|]; [|discriminate].
    destruct (IH _ Hp) as [post ->]. now exists post.
Qed.

Lemma append_empty_r (s : string) : s ++ EmptyString = s.
Proof. induction s as [|c s IH]; simpl; congruence. Qed.

Lemma includes_prefix (needle hay : string) :
  String.prefix needle hay = true -> includes needle hay = true.
Proof. intros Hp. destruct hay; cbn [includes]; now rewrite Hp. Qed.

Lemma includes_append (pre needle post : string) :
  includes needle (pre ++ needle ++ post) = true.
Proof.
  induction pre as [|c pre IH].
  - change (EmptyString ++ needle ++ post) with (needle ++ post).
    apply includes_prefix, prefix_append.
  - change (String c pre ++ needle ++ post)
      with (String c (pre ++ needle ++ post)).
    cbn [includes]. rewrite IH. apply orb_true_r.
Qed.

(** [includes] decides the occurrence of [needle] in [hay]. *)
Lemma includes_spec (needle hay : string) :
  includes needle hay = true <-> exists pre post, hay = pre ++ needle ++ post.
Proof.
  split.
  - induction hay as [|c hay IH]; cbn [includes]; intros Hi.
    + rewrite orb_false_r in Hi.
      destruct (prefix_true_append _ _ Hi) as [post ->].
      now exists EmptyString, post.
    + apply orb_true_iff in Hi as [Hp|Hr].
      * destruct (prefix_true_append _ _ Hp) as [post ->].
        now exists EmptyString, post.
      * destruct (IH Hr) as (pre & post & ->).
        now exists (String c pre), post.
  - intros (pre & post & ->). apply includes_append.
Qed.

(* ------------------------------------------------------------------------- *)
(** ** What ingestion touches and what it leaves alone *)

Lemma selectedTexts_ingest (a : Arrival) (s : AppState) :
  selectedTexts (ingest a s) = folded a :: firstn 9 (selectedTexts s).
Proof. destruct a; simpl; now rewrite slice_0. Qed.

Lemma isDetecting_ingest (a : Arrival) (s : AppState) :
  isDetecting (ingest a s) = isDetecting s.
Proof. now destruct a. Qed.

Lemma hasPermissions_ingest (a : Arrival) (s : AppState) :
  hasPermissions (ingest a s) = hasPermissions s.
Proof. now destruct a. Qed.

Lemma status_ingest (a : Arrival) (s : AppState) :
  status (ingest a s) = status s.
Proof. now destruct a. Qed.

Lemma ingest_all_snoc (l : list Arrival) (a : Arrival) (s : AppState) :
  ingest_all (l ++ [a])%list s = ingest a (ingest_all l s).
Proof. unfold ingest_all. now rewrite fold_left_app. Qed.

Lemma isDetecting_ingest_all (l : list Arrival) (s : AppState) :
  isDetecting (ingest_all l s) = isDetecting s.
Proof.
  revert s; induction l as [|a l IH]; intros s; [reflexivity|].
  simpl. fold (ingest_all l (ingest a s)).
  now rewrite IH, isDetecting_ingest.
Qed.

Lemma hasPermissions_ingest_all (l : list Arrival) (s : AppState) :
  hasPermissions (ingest_all l s) = hasPermissions s.
Proof.
  revert s; induction l as [|a l IH]; intros s; [reflexivity|].
  simpl. fold (ingest_all l (ingest a s)).
  now rewrite IH, hasPermissions_ingest.
Qed.

Lemma status_ingest_all (l : list Arrival) (s : AppState) :
  status (ingest_all l s) = status s.
Proof.
  revert s; induction l as [|a l IH]; intros s; [reflexivity|].
  simpl. fold (ingest_all l (ingest a s)).
  now rewrite IH, status_ingest.
Qed.

(** Clicks and settlements never touch the list. *)
Lemma selectedTexts_click (b : Button) (s : AppState) :
  selectedTexts (click b s) = selectedTexts s.
Proof.
  unfold click. destruct (disabled b); [reflexivity|].
  now destruct (onClick b).
Qed.

Lemma selectedTexts_settled {E : Type} `{JsToString E} (o : Outcome E)
    (s : AppState) :
  selectedTexts (settled o s) = selectedTexts s.
Proof. destruct o as [[]|[]|[]]; reflexivity. Qed.

Lemma arrivals_app {E : Type} (l1 l2 : list (Msg E)) :
  arrivals (l1 ++ l2)%list = (arrivals l1 ++ arrivals l2)%list.
Proof.
  induction l1 as [|m l1 IH]; [reflexivity|].
  destruct m; simpl; now rewrite IH.
Qed.

Lemma run_snoc {E : Type} `{JsToString E} (l : list (Msg E)) (m : Msg E)
    (s : AppState) :
  run (l ++ [m])%list s = update m (run l s).
Proof. unfold run. now rewrite fold_left_app. Qed.

(** The list after any run: the arrivals, newest first, in front of what was
    there, cut to ten. *)
Lemma selectedTexts_run {E : Type} `{JsToString E} (msgs : list (Msg E))
    (s : AppState) :
  List.length (selectedTexts s) <= 10 ->
  selectedTexts (run msgs s)
  = firstn 10 (rev (map folded (arrivals msgs)) ++ selectedTexts s)%list.
Proof.
  intros Hs. induction msgs as [|m msgs IH] using rev_ind.
  - cbn [run fold_left arrivals map rev app]. now rewrite firstn_all2.
  - rewrite run_snoc, arrivals_app.
    destruct m as [a| | |o]; simpl arrivals; rewrite ?app_nil_r.
    + simpl update. rewrite selectedTexts_ingest, IH.
      rewrite map_app, rev_app_distr.
      cbn [map rev app]. rewrite firstn_cons, firstn_firstn.
      reflexivity.
    + simpl update. now rewrite selectedTexts_click.
    + simpl update. now rewrite selectedTexts_click.
    + simpl update. now rewrite selectedTexts_settled.
Qed.

Lemma run_map_Arrive {E : Type} `{JsToString E} (l : list Arrival)
    (s : AppState) :
  run (map Arrive l) s = ingest_all l s.
Proof.
  revert s; induction l as [|a l IH]; intros s; [reflexivity|].
  simpl. apply IH.
Qed.

Lemma arrivals_map_Arrive {E : Type} (l : list Arrival) :
  arrivals (map (@Arrive E) l) = l.
Proof. induction l as [|a l IH]; simpl; congruence. Qed.

Lemma length_mapi_from {A B : Type} (f : nat -> A -> B) (l : list A) :
  forall index, List.length (mapi_from f index l) = List.length l.
Proof. induction l as [|x l IH]; intros index; simpl; [|rewrite IH]; easy. Qed.

(** What a rejected call leaves in the state. *)
Lemma isDetecting_rejected_call {E : Type} `{JsToString E} (h : Handler)
    (error : E) (between : list Arrival) (s : AppState) :
  isDetecting (rejected_call h error between s) = isDetecting s.
Proof.
  unfold rejected_call.
  destruct h; simpl; now rewrite isDetecting_ingest_all.
Qed.

Lemma status_rejected_call {E : Type} `{JsToString E} (h : Handler)
    (error : E) (between : list Arrival) (s : AppState) :
  status (rejected_call h error between s)
  = match h with
    | checkPermissions => "Error checking permissions"
    | startDetection | stopDetection => "Error: " ++ ToString error
    end.
Proof. now destruct h. Qed.

(* ------------------------------------------------------------------------- *)
(** ** The bounded list *)

(** C1. Whatever arrives on the two channels, in whatever order and with
    whatever clicks and settlements in between, the list on display never has
    more than 10 items and has exactly min(10, number of events received so
    far) of them.  The message sequence is arbitrary, so the statement holds
    after every arrival of every stream. *)
Theorem selection_list_length {E : Type} `{JsToString E}
    (msgs : list (Msg E)) :
  List.length (selectedTexts (run msgs initial)) <= 10 /\
  List.length (selectedTexts (run msgs initial))
    = Nat.min 10 (List.length (arrivals msgs)) /\
  List.length (render_text_list (run msgs initial))
    = Nat.min 10 (List.length (arrivals msgs)) /\
  render_count (run msgs initial) = Nat.min 10 (List.length (arrivals msgs)).
Proof.
  assert (Hlen : List.length (selectedTexts (run msgs initial))
                 = Nat.min 10 (List.length (arrivals msgs))).
  { rewrite selectedTexts_run by (simpl; lia).
    cbn [selectedTexts initial]. rewrite app_nil_r.
    now rewrite length_firstn, length_rev, length_map. }
  unfold render_text_list, render_count.
  rewrite length_mapi_from, Hlen. repeat split; lia.
Qed.

(** C4. Eleven events [e1 .. e11] arriving in that order on the structured
    channel, the list being empty before, leave exactly
    [e11; e10; ...; e2] on display: ten items, [e1] gone. *)
Theorem eleven_structured_events
    (e1 e2 e3 e4 e5 e6 e7 e8 e9 e10 e11 : SelectionEvent)
    (detecting permitted : bool) (line : string) :
  selectedTexts
    (ingest_all
       (map TextSelectionChanged [e1; e2; e3; e4; e5; e6; e7; e8; e9; e10; e11])
       {| isDetecting := detecting; hasPermissions := permitted;
          selectedTexts := []; status := line |})
  = [e11; e10; e9; e8; e7; e6; e5; e4; e3; e2].
Proof. reflexivity. Qed.

(** C5. Every arrival, on either channel, goes to the front of the list, so
    the list on display is the arrivals in the reverse of their order of
    arrival (newest first), cut to ten.  The timestamps inside the events
    play no part: the statement holds for every choice of them. *)
Theorem newest_first {E : Type} `{JsToString E} (msgs : list (Msg E))
    (a : Arrival) :
  selectedTexts (ingest a (run msgs initial))
    = folded a :: firstn 9 (selectedTexts (run msgs initial)) /\
  hd_error (selectedTexts (run (msgs ++ [Arrive a])%list initial))
    = Some (folded a) /\
  selectedTexts (run msgs initial)
    = firstn 10 (rev (map folded (arrivals msgs))).
Proof.
  split; [apply selectedTexts_ingest|]. split.
  - rewrite run_snoc. simpl update. now rewrite selectedTexts_ingest.
  - rewrite selectedTexts_run by (simpl; lia).
    cbn [selectedTexts initial]. now rewrite app_nil_r.
Qed.

(** An event stamped earlier that arrives later is shown first. *)
Example later_arrival_with_earlier_timestamp :
  let old := {| text := "a"; app_name := "x"; timestamp := 100%float;
                selection_type := Hovered |} in
  let new := {| text := "b"; app_name := "y"; timestamp := 200%float;
                selection_type := Focused |} in
  selectedTexts
    (ingest_all [TextSelectionChanged new; TextSelectionChanged old] initial)
  = [old; new].
Proof. reflexivity. Qed.

(** C3. A payload arriving on the hotkey channel is put at the front of the
    list as an event of kind [Selected], from the application
    "Unknown (Hotkey)", with the payload as its text and the clock reading at
    receipt, divided by 1000 (seconds since the epoch), as its timestamp.  The
    payload is a bare string: no capture time comes with it. *)
Theorem hotkey_event_synthesized (payload : string) (now : float)
    (s : AppState) :
  hd_error (selectedTexts (ingest (HotkeySelectionDetected payload now) s))
    = Some {| text := payload;
              app_name := "Unknown (Hotkey)";
              timestamp := PrimFloat.div now 1000%float;
              selection_type := Selected |} /\
  folded (HotkeySelectionDetected payload now)
    = {| text := payload;
         app_name := "Unknown (Hotkey)";
         timestamp := PrimFloat.div now 1000%float;
         selection_type := Selected |}.
Proof. split; reflexivity. Qed.

(** A receipt at 1700000000500 ms is stamped 1700000000.5 s. *)
Example hotkey_timestamp_in_seconds :
  timestamp (hotkey_selectionEvent 1700000000500%float "hello")
  = 1700000000.5%float.
Proof. reflexivity. Qed.

(** C9. Ingesting an event, from either channel, changes the list only: the
    detection flag, the permission flag and the status line stay as they
    were. *)
Theorem ingestion_frame (a : Arrival) (s : AppState) :
  isDetecting (ingest a s) = isDetecting s /\
  hasPermissions (ingest a s) = hasPermissions s /\
  status (ingest a s) = status s.
Proof. destruct a; repeat split. Qed.

(* ------------------------------------------------------------------------- *)
(** ** Backend calls and the controls *)

(** C6. When [start_text_detection] resolves, the detection flag is set, the
    status line shows the returned string and the one button of the controls
    is the stop button; when [stop_text_detection] resolves, the flag is
    cleared, the status line shows the returned string and the one button is
    the start button.  Events may arrive while the call is pending. *)
Theorem detection_call_resolved {E : Type} `{JsToString E} (result : string)
    (between : list Arrival) (s : AppState) :
  (isDetecting
     (startDetection_settled (E := E) (Resolved result)
        (ingest_all between (startDetection_called s))) = true /\
   render_status
     (startDetection_settled (E := E) (Resolved result)
        (ingest_all between (startDetection_called s))) = result /\
   render_controls
     (startDetection_settled (E := E) (Resolved result)
        (ingest_all between (startDetection_called s))) = stop_btn) /\
  (isDetecting
     (stopDetection_settled (E := E) (Resolved result)
        (ingest_all between (stopDetection_called s))) = false /\
   render_status
     (stopDetection_settled (E := E) (Resolved result)
        (ingest_all between (stopDetection_called s))) = result /\
   render_controls
     (stopDetection_settled (E := E) (Resolved result)
        (ingest_all between (stopDetection_called s)))
     = start_btn (hasPermissions s)).
Proof.
  repeat split.
  unfold render_controls, stopDetection_settled. simpl.
  now rewrite hasPermissions_ingest_all.
Qed.

(** C7. When [check_permissions] rejects, the status line becomes the fixed
    string "Error checking permissions" and the permission flag, and with it
    the indicator, keeps the value it had. *)
Theorem check_permissions_rejected {E : Type} `{JsToString E} (error : E)
    (between : list Arrival) (s : AppState) :
  render_status (rejected_call checkPermissions error between s)
    = "Error checking permissions" /\
  hasPermissions (rejected_call checkPermissions error between s)
    = hasPermissions s /\
  render_permissions (rejected_call checkPermissions error between s)
    = render_permissions s.
Proof.
  unfold render_permissions, rejected_call. simpl.
  rewrite hasPermissions_ingest_all. repeat split.
Qed.

(** C8. When [check_permissions] resolves to [true], the permission flag is
    set and the start button, when it is the button on display, is enabled
    and a click on it starts [startDetection].  When it resolves to [false],
    the flag is cleared, the status line reads "Permissions needed", and the
    start button, when on display, is disabled: a click on it starts nothing
    and leaves the state as it is. *)
Theorem check_permissions_resolved {E : Type} `{JsToString E}
    (between : list Arrival) (s : AppState) :
  (hasPermissions
     (checkPermissions_settled (E := E) (Resolved true)
        (ingest_all between (checkPermissions_called s))) = true /\
   render_status
     (checkPermissions_settled (E := E) (Resolved true)
        (ingest_all between (checkPermissions_called s)))
     = "Permissions granted" /\
   render_controls
     (checkPermissions_settled (E := E) (Resolved true)
        (ingest_all between (checkPermissions_called s)))
     = (if isDetecting s then stop_btn else start_btn true) /\
   disabled (start_btn true) = false /\
   click_starts (start_btn true) = Some startDetection) /\
  (hasPermissions
     (checkPermissions_settled (E := E) (Resolved false)
        (ingest_all between (checkPermissions_called s))) = false /\
   render_status
     (checkPermissions_settled (E := E) (Resolved false)
        (ingest_all between (checkPermissions_called s)))
     = "Permissions needed" /\
   render_controls
     (checkPermissions_settled (E := E) (Resolved false)
        (ingest_all between (checkPermissions_called s)))
     = (if isDetecting s then stop_btn else start_btn false) /\
   disabled (start_btn false) = true /\
   click_starts (start_btn false) = None /\
   click (start_btn false)
     (checkPermissions_settled (E := E) (Resolved false)
        (ingest_all between (checkPermissions_called s)))
     = checkPermissions_settled (E := E) (Resolved false)
         (ingest_all between (checkPermissions_called s))).
Proof.
  unfold render_controls, checkPermissions_called. simpl.
  rewrite isDetecting_ingest_all.
  destruct (isDetecting s); repeat split.
Qed.

(** C10. The stop button carries no [disabled] attribute: while the detection
    flag is set it is the button on display, whatever the permission flag,
    and a click on it starts [stopDetection], which invokes
    [stop_text_detection].  While the flag is clear the start button is on
    display, disabled exactly when the permission flag is clear. *)
Theorem stop_never_disabled (s : AppState) :
  disabled stop_btn = false /\
  (if isDetecting s
   then render_controls s = stop_btn /\
        click_starts (render_controls s) = Some stopDetection /\
        click (render_controls s) s = stopDetection_called s /\
        command stopDetection = "stop_text_detection"
   else render_controls s = start_btn (hasPermissions s) /\
        disabled (render_controls s) = negb (hasPermissions s) /\
        click_starts (render_controls s)
          = (if hasPermissions s then Some startDetection else None) /\
        click (render_controls s) s
          = (if hasPermissions s then startDetection_called s else s)).
Proof.
  unfold render_controls.
  destruct s as [[] [] l line]; repeat split.
Qed.

(** C2, as the code has it.  When [start_text_detection] or
    [stop_text_detection] rejects, the status line is "Error: " followed by
    the string form of the reason, and so contains it; when
    [check_permissions] rejects, the status line is the fixed string
    "Error checking permissions".  In all three cases the detection flag has
    the value it had before the call. *)
Theorem backend_call_rejected {E : Type} `{JsToString E} (h : Handler)
    (error : E) (between : list Arrival) (s : AppState) :
  isDetecting (rejected_call h error between s) = isDetecting s /\
  match h with
  | checkPermissions =>
      render_status (rejected_call h error between s)
        = "Error checking permissions"
  | startDetection | stopDetection =>
      render_status (rejected_call h error between s)
        = "Error: " ++ ToString error /\
      includes (ToString error)
        (render_status (rejected_call h error between s)) = true
  end.
Proof.
  split; [apply isDetecting_rejected_call|].
  unfold render_status. rewrite status_rejected_call.
  pose proof (includes_append "Error: " (ToString error) EmptyString) as Hin.
  rewrite append_empty_r in Hin.
  destruct h; [reflexivity| |]; (split; [reflexivity|exact Hin]).
Qed.

(** C2 as stated fails for [check_permissions]: rejected with the reason
    "denied", the call leaves a status line that does not contain "denied". *)
Lemma check_permissions_hides_reason :
  ~ (includes (ToString "denied")
       (render_status (rejected_call checkPermissions "denied" [] initial))
     = true /\
     isDetecting (rejected_call checkPermissions "denied" [] initial)
     = isDetecting initial).
Proof. intros [Hin _]. vm_compute in Hin. discriminate. Qed.

(* ------------------------------------------------------------------------- *)
(** ** Colours and items *)

(** X1. The three kinds of selection get three different colours. *)
Theorem getTypeColor_injective (t1 t2 : SelectionType) :
  getTypeColor (selection_type_string t1)
    = getTypeColor (selection_type_string t2) ->
  t1 = t2.
Proof. destruct t1, t2; vm_compute; congruence. Qed.

Lemma getTypeColor_injective_witness :
  getTypeColor (selection_type_string Hovered)
    = getTypeColor (selection_type_string Hovered) /\ Hovered = Hovered.
Proof.
  split; [reflexivity|].
  apply (getTypeColor_injective Hovered Hovered). reflexivity.
Defined.

(** X2. A type string that is none of "Selected", "Hovered", "Focused" (the
    comparison is exact, so a different case counts) falls to the default
    colour "#666"; no kind of selection ever does. *)
Theorem getTypeColor_default (type : string) :
  type <> "Selected" -> type <> "Hovered" -> type <> "Focused" ->
  getTypeColor type = "#666" /\
  forall t : SelectionType, getTypeColor (selection_type_string t) <> "#666".
Proof.
  intros Hs Hh Hf. split.
  - unfold getTypeColor.
    destruct (String.eqb_spec type "Selected"); [contradiction|].
    destruct (String.eqb_spec type "Hovered"); [contradiction|].
    destruct (String.eqb_spec type "Focused"); [contradiction|].
    reflexivity.
  - intros []; vm_compute; discriminate.
Qed.

Lemma getTypeColor_default_witness :
  "selected" <> "Selected" /\ "selected" <> "Hovered" /\
  "selected" <> "Focused" /\
  getTypeColor "selected" = "#666" /\
  forall t : SelectionType, getTypeColor (selection_type_string t) <> "#666".
Proof.
  split; [discriminate|]. split; [discriminate|]. split; [discriminate|].
  apply (getTypeColor_default "selected"); discriminate.
Defined.

Lemma map_mapi_from {A B C : Type} (g : B -> C) (f : nat -> A -> B)
    (h : A -> C) (l : list A) :
  (forall i x, g (f i x) = h x) ->
  forall index, map g (mapi_from f index l) = map h l.
Proof.
  intros Hgf. induction l as [|x l IH]; intros index; simpl; [reflexivity|].
  now rewrite Hgf, IH.
Qed.

Lemma keys_mapi_from (l : list SelectionEvent) :
  forall index,
    map item_key (mapi_from render_item index l) = seq index (List.length l).
Proof.
  induction l as [|x l IH]; intros index; simpl; [reflexivity|].
  now rewrite IH.
Qed.

(** X3. The items on display are the events of the list, one for one and in
    the same order; the key of an item is its position, counted from 0. *)
Theorem render_text_list_faithful (s : AppState) :
  map item_key (render_text_list s) = seq 0 (List.length (selectedTexts s)) /\
  map item_content (render_text_list s) = map text (selectedTexts s) /\
  map item_app_name (render_text_list s) = map app_name (selectedTexts s) /\
  map item_time (render_text_list s) = map timestamp (selectedTexts s) /\
  map item_type (render_text_list s)
    = map (fun e => selection_type_string (selection_type e))
        (selectedTexts s).
Proof.
  unfold render_text_list. split; [apply keys_mapi_from|].
  repeat split; now apply map_mapi_from.
Qed.

(** X4. A hotkey capture is shown as the first item: key 0, the green of
    "Selected", the label "Selected", the application "Unknown (Hotkey)",
    the receipt time in seconds and the captured text. *)
Theorem hotkey_item_rendered (payload : string) (now : float) (s : AppState) :
  hd_error
    (render_text_list (ingest (HotkeySelectionDetected payload now) s))
  = Some {| item_key := 0;
            item_backgroundColor := "#4CAF50";
            item_type := "Selected";
            item_app_name := "Unknown (Hotkey)";
            item_time := PrimFloat.div now 1000%float;
            item_content := payload |}.
Proof. reflexivity. Qed.

(* ------------------------------------------------------------------------- *)
(** ** Eviction *)

Lemma selectedTexts_run_no_arrivals {E : Type} `{JsToString E}
    (msgs : list (Msg E)) (s : AppState) :
  arrivals msgs = [] -> selectedTexts (run msgs s) = selectedTexts s.
Proof.
  induction msgs as [|m msgs IH] using rev_ind; [reflexivity|].
  rewrite arrivals_app, run_snoc. intros Ha.
  apply app_eq_nil in Ha as [Ha Hm].
  destruct m as [a| | |o]; [discriminate| | |]; simpl update.
  - now rewrite selectedTexts_click, IH.
  - now rewrite selectedTexts_click, IH.
  - now rewrite selectedTexts_settled, IH.
Qed.

(** From any state at all, once something has arrived. *)
Lemma selectedTexts_run_arrived {E : Type} `{JsToString E}
    (msgs : list (Msg E)) (s : AppState) :
  arrivals msgs <> [] ->
  selectedTexts (run msgs s)
  = firstn 10 (rev (map folded (arrivals msgs)) ++ selectedTexts s)%list.
Proof.
  induction msgs as [|m msgs IH] using rev_ind; [easy|].
  rewrite arrivals_app, run_snoc.
  destruct m as [a| | |o]; simpl arrivals; rewrite ?app_nil_r; intros Hne.
  - simpl update. rewrite selectedTexts_ingest.
    rewrite map_app, rev_app_distr. cbn [map rev app]. rewrite firstn_cons.
    destruct (arrivals msgs) as [|a0 rest] eqn:Harr.
    + rewrite selectedTexts_run_no_arrivals by assumption. reflexivity.
    + rewrite IH by discriminate. now rewrite firstn_firstn.
  - simpl update. rewrite selectedTexts_click. now apply IH.
  - simpl update. rewrite selectedTexts_click. now apply IH.
  - simpl update. rewrite selectedTexts_settled. now apply IH.
Qed.

Lemma firstn_repeat {A : Type} (x : A) (n k : nat) :
  firstn k (repeat x n) = repeat x (Nat.min k n).
Proof.
  revert n; induction k as [|k IH]; intros [|n]; simpl; try reflexivity.
  now rewrite IH.
Qed.

Lemma length_selectedTexts_run {E : Type} `{JsToString E}
    (msgs : list (Msg E)) :
  List.length (selectedTexts (run msgs initial))
  = Nat.min 10 (List.length (arrivals msgs)).
Proof.
  rewrite selectedTexts_run by (simpl; lia).
  cbn [selectedTexts initial]. rewrite app_nil_r.
  now rewrite length_firstn, length_rev, length_map.
Qed.



(** X6. When exactly ten events are held, an arrival evicts exactly one, the
    last of the list (the oldest): the new list is the new event followed by
    the old list without its last element. *)
Theorem eviction_at_capacity (a : Arrival) (s : AppState) :
  List.length (selectedTexts s) = 10 ->
  selectedTexts (ingest a s) = folded a :: removelast (selectedTexts s) /\
  List.length (selectedTexts (ingest a s)) = 10.
Proof.
  intros Hlen. rewrite selectedTexts_ingest.
  rewrite removelast_firstn_len, Hlen. split; [reflexivity|].
  cbn [List.length]. rewrite length_firstn. lia.
Qed.

Lemma eviction_at_capacity_witness :
  let full :=
    ingest_all (repeat (HotkeySelectionDetected "abc" 5000%float) 10) initial
  in
  List.length (selectedTexts full) = 10 /\
  selectedTexts (ingest (HotkeySelectionDetected "new" 6000%float) full)
    = folded (HotkeySelectionDetected "new" 6000%float)
        :: removelast (selectedTexts full) /\
  List.length
    (selectedTexts (ingest (HotkeySelectionDetected "new" 6000%float) full))
    = 10.
Proof.
  split; [reflexivity|].
  apply (eviction_at_capacity
           (HotkeySelectionDetected "new" 6000%float)
           (ingest_all
              (repeat (HotkeySelectionDetected "abc" 5000%float) 10) initial)).
  reflexivity.
Defined.

(** X7. After ten or more arrivals the list holds the last ten of them,
    newest first, and nothing else: what the list held before, whatever it
    was, is gone. *)
Theorem flushed_after_ten_arrivals {E : Type} `{JsToString E}
    (msgs : list (Msg E)) (s : AppState) :
  10 <= List.length (arrivals msgs) ->
  selectedTexts (run msgs s) = firstn 10 (rev (map folded (arrivals msgs))).
Proof.
  intros Hlen.
  rewrite selectedTexts_run_arrived
    by (destruct (arrivals msgs); [simpl in Hlen; lia | discriminate]).
  rewrite firstn_app, length_rev, length_map.
  replace (10 - List.length (arrivals msgs)) with 0 by lia.
  simpl. apply app_nil_r.
Qed.

Lemma flushed_after_ten_arrivals_witness :
  let stale :=
    {| isDetecting := true; hasPermissions := true;
       selectedTexts := [hotkey_selectionEvent 1000%float "stale"];
       status := "Ready" |} in
  let msgs : list (Msg string) :=
    map Arrive (repeat (HotkeySelectionDetected "abc" 5000%float) 10) in
  10 <= List.length (arrivals msgs) /\
  selectedTexts (run msgs stale)
  = firstn 10 (rev (map folded (arrivals msgs))).
Proof.
  split; [vm_compute; lia|].
  apply (flushed_after_ten_arrivals (E := string)). vm_compute; lia.
Defined.

(** X8. Nothing is deduplicated: the same arrival repeated [n] times leaves
    min(10, n) copies of its event on display. *)
Theorem no_deduplication (a : Arrival) (n : nat) :
  selectedTexts (ingest_all (repeat a n) initial)
  = repeat (folded a) (Nat.min 10 n).
Proof.
  rewrite <- (run_map_Arrive (E := string)).
  rewrite selectedTexts_run by (simpl; lia).
  rewrite arrivals_map_Arrive. cbn [selectedTexts initial].
  rewrite app_nil_r, map_repeat, rev_repeat. apply firstn_repeat.
Qed.

(** X9. Nothing ever clears the list: along any run from the initial state
    no message makes the list shorter. *)
Theorem list_never_shrinks {E : Type} `{JsToString E} (msgs : list (Msg E))
    (m : Msg E) :
  List.length (selectedTexts (run msgs initial))
  <= List.length (selectedTexts (run (msgs ++ [m])%list initial)).
Proof.
  rewrite !length_selectedTexts_run, arrivals_app, length_app. lia.
Qed.

(** X10. The paragraph that stands for an empty list is on display exactly as
    long as nothing has arrived; from the first arrival on, the list of items
    is. *)
Theorem empty_view_until_first_arrival {E : Type} `{JsToString E}
    (msgs : list (Msg E)) :
  render_detected_texts (run msgs initial)
  = match arrivals msgs with
    | [] => NoSelectionsYet
    | _ :: _ => TextList (render_text_list (run msgs initial))
    end.
Proof.
  unfold render_detected_texts. rewrite length_selectedTexts_run.
  now destruct (arrivals msgs).
Qed.

(* ------------------------------------------------------------------------- *)
(** ** The event loop as a whole *)

Lemma ingest_setStatus (a : Arrival) (v : string) (s : AppState) :
  ingest a (setStatus v s) = setStatus v (ingest a s).
Proof. now destruct a. Qed.

Lemma ingest_all_setStatus (l : list Arrival) (v : string) (s : AppState) :
  ingest_all l (setStatus v s) = setStatus v (ingest_all l s).
Proof.
  revert s; induction l as [|a l IH]; intros s; [reflexivity|].
  simpl. fold (ingest_all l (ingest a (setStatus v s))).
  fold (ingest_all l (ingest a s)).
  now rewrite ingest_setStatus, IH.
Qed.

Lemma setStatus_setStatus (v w : string) (s : AppState) :
  setStatus v (setStatus w s) = setStatus v s.
Proof. reflexivity. Qed.

Lemma setStatus_same (s : AppState) : setStatus (status s) s = s.
Proof. now destruct s. Qed.

(** X11. The two flags change only when the backend confirms: the detection
    flag only when a start or a stop call resolves, the permission flag only
    when a permission check resolves.  No arrival, click or rejection changes
    either. *)
Theorem flags_follow_resolutions {E : Type} `{JsToString E} (m : Msg E)
    (s : AppState) :
  isDetecting (update m s)
    = match m with
      | Settle (StartDetectionOutcome (Resolved _)) => true
      | Settle (StopDetectionOutcome (Resolved _)) => false
      | _ => isDetecting s
      end /\
  hasPermissions (update m s)
    = match m with
      | Settle (CheckPermissionsOutcome (Resolved permissions)) => permissions
      | _ => hasPermissions s
      end.
Proof.
  destruct m as [a| | |[[]|[]|[]]]; simpl update.
  - now rewrite isDetecting_ingest, hasPermissions_ingest.
  - now split.
  - unfold render_controls. destruct s as [[] [] l line]; now split.
  - now split.
  - now split.
  - now split.
  - now split.
  - now split.
  - now split.
Qed.

(** X12. An arrival commutes with every click and every settlement: whether
    an event is handled just before or just after one of them, the state
    that results is the same. *)
Theorem arrival_commutes {E : Type} `{JsToString E} (a : Arrival)
    (o : Outcome E) (s : AppState) :
  update (Arrive a) (update (E := E) ClickRefresh s)
    = update (E := E) ClickRefresh (update (Arrive a) s) /\
  update (Arrive a) (update (E := E) ClickControl s)
    = update (E := E) ClickControl (update (Arrive a) s) /\
  update (Arrive a) (update (Settle o) s)
    = update (Settle o) (update (Arrive a) s).
Proof.
  split; [reflexivity|]. split.
  - simpl update. unfold render_controls.
    rewrite isDetecting_ingest, hasPermissions_ingest.
    destruct s as [[] [] l line]; destruct a; reflexivity.
  - destruct o as [[]|[]|[]], a; reflexivity.
Qed.

(** X13. A call that rejects changes the status line and nothing else: the
    state it leaves is the state the interleaved arrivals alone would have
    left, with the error status written over it. *)
Theorem rejected_call_only_status {E : Type} `{JsToString E} (h : Handler)
    (error : E) (between : list Arrival) (s : AppState) :
  rejected_call h error between s
  = setStatus
      match h with
      | checkPermissions => "Error checking permissions"
      | startDetection | stopDetection => "Error: " ++ ToString error
      end
      (ingest_all between s).
Proof.
  unfold rejected_call.
  destruct h; simpl; unfold startDetection_called, stopDetection_called;
    now rewrite ?ingest_all_setStatus, ?setStatus_setStatus.
Qed.

(** X14. Nothing guards a pending start: after a click on an enabled start
    button, and however many events arrive before the backend answers, the
    status line reads "Starting detection...", the start button is still the
    one on display and still enabled, and a second click starts
    [startDetection] again. *)
Theorem pending_start_not_guarded {E : Type} `{JsToString E}
    (between : list Arrival) (s : AppState) :
  isDetecting s = false ->
  hasPermissions s = true ->
  render_status (run (E := E) (ClickControl :: map Arrive between) s)
    = "Starting detection..." /\
  render_controls (run (E := E) (ClickControl :: map Arrive between) s)
    = start_btn true /\
  click_starts
    (render_controls (run (E := E) (ClickControl :: map Arrive between) s))
    = Some startDetection.
Proof.
  intros Hd Hp.
  change (run (ClickControl :: map Arrive between) s)
    with (run (map Arrive between) (update (E := E) ClickControl s)).
  rewrite run_map_Arrive. simpl update.
  unfold render_controls, render_status.
  rewrite isDetecting_ingest_all, hasPermissions_ingest_all, status_ingest_all.
  rewrite Hd, Hp. simpl.
  rewrite Hd, Hp. repeat split.
Qed.

Lemma pending_start_not_guarded_witness :
  isDetecting (setHasPermissions true initial) = false /\
  hasPermissions (setHasPermissions true initial) = true /\
  render_status
    (run (E := string)
       (ClickControl
          :: map Arrive [HotkeySelectionDetected "abc" 5000%float])
       (setHasPermissions true initial))
    = "Starting detection..." /\
  render_controls
    (run (E := string)
       (ClickControl
          :: map Arrive [HotkeySelectionDetected "abc" 5000%float])
       (setHasPermissions true initial))
    = start_btn true /\
  click_starts
    (render_controls
       (run (E := string)
          (ClickControl
             :: map Arrive [HotkeySelectionDetected "abc" 5000%float])
          (setHasPermissions true initial)))
    = Some startDetection.
Proof.
  split; [reflexivity|]. split; [reflexivity|].
  apply (pending_start_not_guarded (E := string)
           [HotkeySelectionDetected "abc" 5000%float]
           (setHasPermissions true initial)); reflexivity.
Defined.

(** X15. A start that resolves followed by a stop that resolves, both begun
    by clicks on the one button of the controls, brings the state back to
    where it was, but for the status line, which shows what the stop call
    returned. *)
Theorem start_stop_round_trip {E : Type} `{JsToString E}
    (started stopped : string) (s : AppState) :
  isDetecting s = false ->
  hasPermissions s = true ->
  run (E := E)
    [ClickControl; Settle (StartDetectionOutcome (Resolved started));
     ClickControl; Settle (StopDetectionOutcome (Resolved stopped))] s
  = setStatus stopped s.
Proof.
  destruct s as [d p l line]. simpl. intros -> ->. reflexivity.
Qed.

Lemma start_stop_round_trip_witness :
  isDetecting (setHasPermissions true initial) = false /\
  hasPermissions (setHasPermissions true initial) = true /\
  run (E := string)
    [ClickControl; Settle (StartDetectionOutcome (Resolved "on"));
     ClickControl; Settle (StopDetectionOutcome (Resolved "off"))]
    (setHasPermissions true initial)
  = setStatus "off" (setHasPermissions true initial).
Proof.
  split; [reflexivity|]. split; [reflexivity|].
  apply (start_stop_round_trip (E := string) "on" "off"
           (setHasPermissions true initial)); reflexivity.
Defined.

(** X16. A permission check that resolves overrides whatever an earlier
    check left, an error status included: only the latest answer shows. *)
Theorem latest_check_wins {E : Type} (permissions : bool)
    (earlier : Settled bool E) (s : AppState) :
  checkPermissions_settled (E := E) (Resolved permissions)
    (checkPermissions_settled earlier s)
  = checkPermissions_settled (E := E) (Resolved permissions) s.
Proof. destruct earlier; reflexivity. Qed.

Lemma settlements_app {E : Type} (l1 l2 : list (Msg E)) :
  settlements (l1 ++ l2)%list = (settlements l1 ++ settlements l2)%list.
Proof.
  induction l1 as [|m l1 IH]; [reflexivity|].
  destruct m; simpl; now rewrite IH.
Qed.

(** X17. Until the backend has answered a call, the UI is inert but for the
    list: from the initial state, a run without settlements leaves both flags
    clear and the status line "Ready"; the start button stays disabled, so no
    click starts a detection. *)
Theorem inert_until_backend_answers {E : Type} `{JsToString E}
    (msgs : list (Msg E)) :
  settlements msgs = [] ->
  isDetecting (run msgs initial) = false /\
  hasPermissions (run msgs initial) = false /\
  status (run msgs initial) = "Ready" /\
  click_starts (render_controls (run msgs initial)) = None.
Proof.
  induction msgs as [|m msgs IH] using rev_ind; [now repeat split|].
  rewrite settlements_app, run_snoc. intros Hs.
  apply app_eq_nil in Hs as [Hs Hm].
  destruct (IH Hs) as (Hd & Hp & Hst & _).
  assert (Hflags :
    isDetecting (update m (run msgs initial)) = false /\
    hasPermissions (update m (run msgs initial)) = false /\
    status (update m (run msgs initial)) = "Ready").
  { destruct m as [a| | |o]; [| | |discriminate]; simpl update.
    - now rewrite isDetecting_ingest, hasPermissions_ingest, status_ingest.
    - now repeat split.
    - unfold render_controls. rewrite Hd, Hp. now repeat split. }
  destruct Hflags as (Hd' & Hp' & Hst'). repeat split; try assumption.
  unfold render_controls. now rewrite Hd', Hp'.
Qed.

Lemma inert_until_backend_answers_witness :
  settlements (E := string)
    [ClickControl; Arrive (HotkeySelectionDetected "abc" 5000%float);
     ClickRefresh; ClickControl] = [] /\
  isDetecting
    (run (E := string)
       [ClickControl; Arrive (HotkeySelectionDetected "abc" 5000%float);
        ClickRefresh; ClickControl] initial) = false /\
  hasPermissions
    (run (E := string)
       [ClickControl; Arrive (HotkeySelectionDetected "abc" 5000%float);
        ClickRefresh; ClickControl] initial) = false /\
  status
    (run (E := string)
       [ClickControl; Arrive (HotkeySelectionDetected "abc" 5000%float);
        ClickRefresh; ClickControl] initial) = "Ready" /\
  click_starts
    (render_controls
       (run (E := string)
          [ClickControl; Arrive (HotkeySelectionDetected "abc" 5000%float);
           ClickRefresh; ClickControl] initial)) = None.
Proof.
  split; [reflexivity|].
  apply (inert_until_backend_answers (E := string)
           [ClickControl; Arrive (HotkeySelectionDetected "abc" 5000%float);
            ClickRefresh; ClickControl]).
  reflexivity.
Defined.
